(** * CARTX API: a shallow embedding of [main.py] and its request handlers

    The service exposes create/list operations over two document
    collections, a seeding operation, a reflective schema report and a
    diagnostic probe.  Handlers are embedded as functions in a small
    state-and-exception monad over the store collaborator; the reflective
    code is embedded over attribute-bearing objects, with Python's
    attribute lookup written out. *)

From Stdlib Require Import List String Ascii ZArith Bool Lia DecimalString.
Import ListNotations.
Open Scope string_scope.
Open Scope Z_scope.

Set Implicit Arguments.
Set Warnings "-register-all".

(** ** Values *)

(** Scalar Python values as they occur in documents, query parameters and
    field declarations.  A float is carried by its shortest decimal
    rendering (what [repr] prints): the service never computes with one.
    [VType] is a type object used as an annotation, carried by the text
    [str] prints for it; [VUndefined] is the marker a required field holds
    in place of a default. *)
Inductive pyval : Type :=
| VNone
| VBool (b : bool)
| VInt (z : Z)
| VFloat (repr : string)
| VStr (s : string)
| VObjectId (hex : string)
| VType (label : string)
| VUndefined.

(** [str(v)] *)
Definition py_str (v : pyval) : string :=
  match v with
  | VNone => "None"
  | VBool true => "True"
  | VBool false => "False"
  | VInt z => NilZero.string_of_int (Z.to_int z)
  | VFloat r => r
  | VStr s => s
  | VObjectId h => h
  | VType l => l
  | VUndefined => "PydanticUndefined"
  end.

(** Truthiness of an optional string, as tested by [if category] and by
    [if os.getenv(...)]: [None] and the empty string are false. *)
Definition truthy (o : option string) : bool :=
  match o with
  | None => false
  | Some s => negb (String.eqb s "")
  end.

(** An [Optional[str]] argument as a value. *)
Definition of_optional (o : option string) : pyval :=
  match o with
  | None => VNone
  | Some s => VStr s
  end.

(** Text is held as the bytes of its UTF-8 encoding.  A character is a
    byte that is not a continuation byte, followed by its continuation
    bytes. *)
Definition is_continuation (c : ascii) : bool :=
  let n := nat_of_ascii c in (Nat.leb 128 n && Nat.ltb n 192)%bool.

(** [len(s)]: the number of characters. *)
Fixpoint str_len (s : string) : nat :=
  match s with
  | EmptyString => O
  | String c s' => if is_continuation c then str_len s' else S (str_len s')
  end.

(** [s[:n]]: the first [n] characters, each with all its bytes. *)
Fixpoint str_take (n : nat) (s : string) : string :=
  match s with
  | EmptyString => EmptyString
  | String c s' =>
      if is_continuation c then String c (str_take n s')
      else match n with
           | O => EmptyString
           | S n' => String c (str_take n' s')
           end
  end.

(** ** Dictionaries

    A Python [dict] keeps insertion order; assignment to a present key
    replaces the value in place, assignment to an absent key appends. *)
Definition dict (V : Type) : Type := list (string * V).

Fixpoint dict_get {V} (d : dict V) (k : string) : option V :=
  match d with
  | [] => None
  | (k', v) :: d' => if String.eqb k k' then Some v else dict_get d' k
  end.

Fixpoint dict_set {V} (d : dict V) (k : string) (v : V) : dict V :=
  match d with
  | [] => [(k, v)]
  | (k', v') :: d' =>
      if String.eqb k k' then (k', v) :: d' else (k', v') :: dict_set d' k v
  end.

Definition keys {V} (d : dict V) : list string := map fst d.

(** A stored document: a flat mapping from field name to value. *)
Definition document : Type := dict pyval.

(** What a handler returns, before JSON encoding. *)
Inductive body : Type :=
| BVal (v : pyval)
| BList (l : list body)
| BDict (d : list (string * body)).

Definition body_of_document (d : document) : body :=
  BDict (map (fun kv => (fst kv, BVal (snd kv))) d).

(** ** Exceptions and results *)

(** An exception raised by a collaborator or by the interpreter: its
    class name and the text [str(e)] gives. *)
Record pyexn : Type := PyError { exn_class : string; exn_msg : string }.

Definition AttributeError (msg : string) : pyexn := PyError "AttributeError" msg.

(** What leaves a handler by [raise]: the handler's own [HTTPException],
    or an exception it did not catch. *)
Inductive exn : Type :=
| HTTPException (status_code : Z) (detail : string)
| Uncaught (e : pyexn).

Inductive result (E A : Type) : Type :=
| Ok (a : A)
| Raise (e : E).
Arguments Ok {E A} a.
Arguments Raise {E A} e.

Definition rbind {E A B} (r : result E A) (f : A -> result E B) : result E B :=
  match r with
  | Ok a => f a
  | Raise e => Raise e
  end.

Fixpoint rmapM {E A B} (f : A -> result E B) (l : list A) : result E (list B) :=
  match l with
  | [] => Ok []
  | a :: l' =>
      rbind (f a) (fun b => rbind (rmapM f l') (fun bs => Ok (b :: bs)))
  end.

(** ** Reflection: attribute-bearing objects *)

(** An object as the reflective code meets it: a scalar, or a bundle of
    named attributes.  A bound method without arguments is held as the
    value its call returns. *)
Inductive pyobj : Type :=
| Atom (v : pyval)
| Obj (type_name : string) (attrs : list (string * pyobj)).

Definition type_name_of (o : pyobj) : string :=
  match o with
  | Atom _ => "object"
  | Obj t _ => t
  end.

Definition no_attribute (o : pyobj) (name : string) : pyexn :=
  AttributeError ("'" ++ type_name_of o ++ "' object has no attribute '" ++ name ++ "'").

(** [o.name]: raises [AttributeError] when the attribute is absent. *)
Definition getattr (o : pyobj) (name : string) : result pyexn pyobj :=
  match o with
  | Atom _ => Raise (no_attribute o name)
  | Obj _ attrs =>
      match dict_get attrs name with
      | Some v => Ok v
      | None => Raise (no_attribute o name)
      end
  end.

(** [getattr(o, name, default)]: the default covers only this lookup; the
    expression giving [o] is evaluated before it. *)
Definition getattr_default (o : pyobj) (name : string) (default : pyobj) : pyobj :=
  match getattr o name with
  | Ok v => v
  | Raise _ => default
  end.

(** [str(o)]; for a bundle, the default rendering without its address. *)
Definition str_obj (o : pyobj) : string :=
  match o with
  | Atom v => py_str v
  | Obj t _ => "<" ++ t ++ " object>"
  end.

(** [o.m()] for a method without arguments returning a boolean. *)
Definition call_bool (o : pyobj) (m : string) : result pyexn bool :=
  rbind (getattr o m) (fun r =>
    match r with
    | Atom (VBool b) => Ok b
    | _ => Raise (PyError "TypeError" ("'" ++ type_name_of r ++ "' object is not callable"))
    end).

(** A model class: [__name__] and [model_fields], the ordered mapping from
    field name to field object. *)
Record model_cls : Type := ModelCls {
  cls_name : string;
  model_fields : list (string * pyobj)
}.

(** A member of the [schemas] module, as [inspect.getmembers] lists it. *)
Inductive member : Type :=
| MBaseModel                       (* the imported [BaseModel] itself *)
| MModel (cls : model_cls)         (* a subclass of [BaseModel] *)
| MClass (name : string)           (* any other class *)
| MOther.                          (* not a class *)

(** One entry of the [fields] mapping of the report. *)
Record field_report : Type := FieldReport {
  fr_type : string;
  fr_required : bool;
  fr_default : pyobj;
  fr_description : pyobj
}.

Record model_report : Type := ModelReport {
  mr_name : string;
  mr_collection : string;
  mr_fields : list (string * field_report)
}.

(** The body of the loop of [model_to_dict]: the four values of the entry
    are evaluated in the order the dictionary display lists them. *)
Definition field_to_dict (field : pyobj) : result pyexn field_report :=
  rbind (getattr field "annotation") (fun annotation =>
  rbind (call_bool field "is_required") (fun required =>
  rbind (call_bool field "is_required") (fun required' =>
  rbind (if required' then Ok (Atom VNone) else getattr field "default") (fun default =>
  rbind (getattr field "field_info") (fun field_info =>
  Ok {| fr_type := str_obj annotation;
        fr_required := required;
        fr_default := default;
        fr_description := getattr_default field_info "description" (Atom VNone) |}))))).

Section Report.

(** [str.lower], the builtin. *)
Variable lower : string -> string.

Definition model_to_dict (model : model_cls) : result pyexn model_report :=
  rbind (rmapM (fun nf => rbind (field_to_dict (snd nf)) (fun r => Ok (fst nf, r)))
               (model_fields model)) (fun fields =>
  Ok {| mr_name := cls_name model;
        mr_collection := lower (cls_name model);
        mr_fields := fields |}).

(** [isclass(m) and issubclass(m, BaseModel) and m is not BaseModel] *)
Definition models_of (members : list member) : list model_cls :=
  flat_map (fun m => match m with MModel c => [c] | _ => [] end) members.

(** [get_schema]: the report over the members of the [schemas] module. *)
Definition get_schema (members : list member) : result pyexn (list model_report) :=
  rmapM model_to_dict (models_of members).

End Report.

(** Modelled from the spec: the field objects of the model classes of the
    [schemas] module, whose source is not available.  The spec gives each
    field [{type, required, default, description?}]; the object below is
    what [model_fields] holds for it, with the attribute names
    [model_to_dict] reads ([annotation], [is_required()], [default]) and
    the declared description under [description]. *)
Definition FieldInfo (annotation : string) (required : bool) (default : pyval)
    (description : option string) : pyobj :=
  Obj "FieldInfo"
    [ ("annotation", Atom (VType annotation));
      ("default", Atom (if required then VUndefined else default));
      ("description", Atom (match description with Some d => VStr d | None => VNone end));
      ("is_required", Atom (VBool required)) ].

(** ** The diagnostic probe *)

(** How an attribute answers [hasattr] followed by a read. *)
Inductive attr_state : Type :=
| AttrAbsent
| AttrValue (v : pyval)
| AttrRaises (e : pyexn).        (* a property raising something other than AttributeError *)

(** The module-level store handle [db], as [test_database] uses it. *)
Record Database : Type := {
  db_name : attr_state;
  list_collection_names : result pyexn (list string)
}.

Definition set_str (response : dict body) (k : string) (s : string) : dict body :=
  dict_set response k (BVal (VStr s)).

(** The statements under the outer [try] of [test_database], threading the
    [response] dictionary: an exception leaves the assignments made before
    it in place. *)
Definition probe_store (db : option Database) (response : dict body)
    : result pyexn unit * dict body :=
  match db with
  | Some db =>
      let response := set_str response "database" "✅ Available" in
      let response := set_str response "database_url" "✅ Configured" in
      match db_name db with
      | AttrRaises e => (Raise e, response)
      | name =>
          let response :=
            dict_set response "database_name"
              (BVal (match name with AttrValue v => v | _ => VStr "✅ Connected" end)) in
          let response := set_str response "connection_status" "Connected" in
          match list_collection_names db with
          | Ok collections =>
              let response :=
                dict_set response "collections"
                  (BList (map (fun c => BVal (VStr c)) (firstn 10 collections))) in
              (Ok tt, set_str response "database" "✅ Connected & Working")
          | Raise e =>
              (Ok tt,
               set_str response "database"
                 ("⚠️  Connected but Error: " ++ str_take 50 (exn_msg e)))
          end
      end
  | None => (Ok tt, set_str response "database" "⚠️  Available but not initialized")
  end.

Definition test_database (db : option Database) (getenv : string -> option string)
    : result exn (dict body) :=
  let response : dict body :=
    [ ("backend", BVal (VStr "✅ Running"));
      ("database", BVal (VStr "❌ Not Available"));
      ("database_url", BVal VNone);
      ("database_name", BVal VNone);
      ("connection_status", BVal (VStr "Not Connected"));
      ("collections", BList []) ] in
  let response :=
    match probe_store db response with
    | (Ok _, response) => response
    | (Raise e, response) =>
        set_str response "database" ("❌ Error: " ++ str_take 50 (exn_msg e))
    end in
  let response :=
    set_str response "database_url"
      (if truthy (getenv "DATABASE_URL") then "✅ Set" else "❌ Not Set") in
  let response :=
    set_str response "database_name"
      (if truthy (getenv "DATABASE_NAME") then "✅ Set" else "❌ Not Set") in
  Ok response.

(** ** Schema declarations and validation *)

Inductive ftype : Type := TStr | TFloat | TInt | TBool.

(** [str(t)] for the builtin types used as annotations. *)
Definition ftype_label (t : ftype) : string :=
  match t with
  | TStr => "<class 'str'>"
  | TFloat => "<class 'float'>"
  | TInt => "<class 'int'>"
  | TBool => "<class 'bool'>"
  end.

(** Modelled from the spec: one field of a schema declaration of the
    [schemas] module, [{type, required, default, description?}]. *)
Record field_decl : Type := FieldDecl {
  fd_name : string;
  fd_type : ftype;
  fd_required : bool;
  fd_default : pyval;
  fd_description : option string
}.

(** Modelled from the spec: the CatalogItem declaration (class [Product] of
    the [schemas] module). *)
Definition Product_fields : list field_decl :=
  [ FieldDecl "title" TStr true VUndefined None;
    FieldDecl "description" TStr true VUndefined None;
    FieldDecl "price" TFloat true VUndefined None;
    FieldDecl "category" TStr true VUndefined None;
    FieldDecl "image" TStr true VUndefined None;
    FieldDecl "in_stock" TBool false (VBool true) None ].

(** Modelled from the spec: the model class a declaration gives rise to,
    one [FieldInfo] per declared field, in declaration order. *)
Definition declare (name : string) (fields : list field_decl) : model_cls :=
  ModelCls name
    (map (fun f => (fd_name f,
                    FieldInfo (ftype_label (fd_type f)) (fd_required f)
                              (fd_default f) (fd_description f)))
         fields).

(** Modelled from the spec: [Product(title=..., ...)], a validated
    instance, as the mapping of its declared fields. *)
Definition Product (title description price category image : string) (in_stock : bool)
    : document :=
  [ ("title", VStr title);
    ("description", VStr description);
    ("price", VFloat price);
    ("category", VStr category);
    ("image", VStr image);
    ("in_stock", VBool in_stock) ].

Record validation_error : Type := ValidationError {
  ve_field : string;
  ve_reason : string
}.

Section Validation.

(** The coercion table of the validation library: what a value of the
    payload becomes under a declared type, if anything. *)
Variable coerce : ftype -> pyval -> option pyval.

Definition validate_field (f : field_decl) (raw : document)
    : result validation_error pyval :=
  match dict_get raw (fd_name f) with
  | None =>
      if fd_required f then Raise (ValidationError (fd_name f) "missing")
      else Ok (fd_default f)
  | Some v =>
      match coerce (fd_type f) v with
      | Some v' => Ok v'
      | None => Raise (ValidationError (fd_name f) "type-mismatch")
      end
  end.

(** Modelled from the spec: [validate(schemaName, rawPayload)], field by
    field in declaration order; fields of the payload that are not
    declared are left out of the document. *)
Fixpoint validate (fields : list field_decl) (raw : document)
    : result validation_error document :=
  match fields with
  | [] => Ok []
  | f :: fields' =>
      rbind (validate_field f raw) (fun v =>
      rbind (validate fields' raw) (fun d => Ok ((fd_name f, v) :: d)))
  end.

End Validation.

(** A coercion table that accepts a value of the declared type as it is. *)
Definition coerce_exact (t : ftype) (v : pyval) : option pyval :=
  match t, v with
  | TStr, VStr _ | TFloat, VFloat _ | TInt, VInt _ | TBool, VBool _ => Some v
  | _, _ => None
  end.

(** ** The store collaborator and the handler monad *)

(** A call made to the store collaborator. *)
Inductive call : Type :=
| GetDocuments (collection : string) (query : document) (limit : option Z)
| CreateDocument (collection : string) (payload : document).

Record http_response : Type := HttpResponse {
  status : Z;
  content : body
}.

(** How the framework answers for a handler: its return value with status
    200, its [HTTPException] with the status and detail it carries, and
    status 500 for an exception nobody caught. *)
Definition respond (r : result exn body) : http_response :=
  match r with
  | Ok b => HttpResponse 200 b
  | Raise (HTTPException code detail) =>
      HttpResponse code (BDict [("detail", BVal (VStr detail))])
  | Raise (Uncaught _) => HttpResponse 500 (BVal (VStr "Internal Server Error"))
  end.

Section Handlers.

Variable Store : Type.

(** [get_documents(collection, query, limit)] of the [database] module:
    a read of the store; the limit is absent when the call leaves it
    out. *)
Variable get_documents :
  string -> document -> option Z -> Store -> result pyexn (list document).

(** [create_document(collection, payload)] of the [database] module: the
    identifier it returns, or the exception it raises, and the store it
    leaves. *)
Variable create_document :
  string -> document -> Store -> result pyexn pyval * Store.

(** The store together with the calls made to it so far, oldest first. *)
Record world : Type := World {
  store : Store;
  calls : list call
}.

Definition M (E A : Type) : Type := world -> result E A * world.

Definition ret {E A} (a : A) : M E A := fun w => (Ok a, w).

Definition raise {E A} (e : E) : M E A := fun w => (Raise e, w).

Definition bind {E A B} (m : M E A) (k : A -> M E B) : M E B :=
  fun w =>
    match m w with
    | (Ok a, w') => k a w'
    | (Raise e, w') => (Raise e, w')
    end.

(** [try: m  except Exception as e: h e] *)
Definition try_except {E E' A} (m : M E A) (h : E -> M E' A) : M E' A :=
  fun w =>
    match m w with
    | (Ok a, w') => (Ok a, w')
    | (Raise e, w') => h e w'
    end.

Fixpoint mapM {E A B} (f : A -> M E B) (l : list A) : M E (list B) :=
  match l with
  | [] => ret []
  | a :: l' => bind (f a) (fun b => bind (mapM f l') (fun bs => ret (b :: bs)))
  end.

Definition call_get_documents (collection : string) (query : document)
    (limit : option Z) : M pyexn (list document) :=
  fun w =>
    (get_documents collection query limit (store w),
     World (store w) (calls w ++ [GetDocuments collection query limit])%list).

Definition call_create_document (collection : string) (payload : document)
    : M pyexn pyval :=
  fun w =>
    let (r, s') := create_document collection payload (store w) in
    (r, World s' (calls w ++ [CreateDocument collection payload])%list).

(** [except Exception as e: raise HTTPException(status_code=500, detail=str(e))] *)
Definition internal_error {A} (e : pyexn) : M exn A :=
  raise (HTTPException 500 (exn_msg e)).

(** [p["_id"] = str(p.get("_id"))] *)
Definition stringify_id (p : document) : document :=
  dict_set p "_id"
    (VStr (py_str (match dict_get p "_id" with Some v => v | None => VNone end))).

Definition items (docs : list document) : body :=
  BDict [("items", BList (map body_of_document docs))].

Definition read_root : M exn body :=
  ret (BDict [("message", BVal (VStr "CARTX backend is running"))]).

Definition list_products (category : option string) : M exn body :=
  try_except
    (let query : document :=
       if truthy category then [("category", of_optional category)] else [] in
     bind (call_get_documents "product" query None) (fun products =>
     let products := map stringify_id products in
     ret (items products)))
    internal_error.

Definition create_product (payload : document) : M exn body :=
  try_except
    (bind (call_create_document "product" payload) (fun _id =>
     ret (BDict [("_id", BVal _id)])))
    internal_error.

Definition samples : list document :=
  [ Product "Orion Headphones"
      "High-fidelity wireless headphones with noise cancellation."
      "129.99" "Audio"
      "https://images.unsplash.com/photo-1518443895470-87f48ac871ec?q=80&w=1600&auto=format&fit=crop"
      true;
    Product "Nova Smartwatch"
      "AMOLED display, 7-day battery, fitness tracking."
      "199.0" "Wearables"
      "https://images.unsplash.com/photo-1511707171634-5f897ff02aa9?q=80&w=1600&auto=format&fit=crop"
      true;
    Product "Flux Portable Speaker"
      "Compact speaker with powerful bass and orange accent ring."
      "89.5" "Audio"
      "https://images.unsplash.com/photo-1519677100203-a0e668c92439?q=80&w=1600&auto=format&fit=crop"
      true;
    Product "Pulse Mechanical Keyboard"
      "Hot-swappable switches, RGB, USB-C."
      "149.0" "Peripherals"
      "https://images.unsplash.com/photo-1517336714731-489689fd1ca8?q=80&w=1600&auto=format&fit=crop"
      true ].

Definition already_seeded : body :=
  BDict [("status", BVal (VStr "already-seeded"))].

Definition seeded (ids : list pyval) : body :=
  BDict [ ("status", BVal (VStr "seeded"));
          ("count", BVal (VInt (Z.of_nat (List.length ids))));
          ("ids", BList (map BVal ids)) ].

Definition seed_products : M exn body :=
  try_except
    (bind (call_get_documents "product" [] (Some 1)) (fun existing =>
     match existing with
     | _ :: _ => ret already_seeded
     | [] =>
         bind (mapM (call_create_document "product") samples) (fun ids =>
         ret (seeded ids))
     end))
    internal_error.

Definition create_order (payload : document) : M exn body :=
  try_except
    (bind (call_create_document "order" payload) (fun _id =>
     ret (BDict [("_id", BVal _id); ("status", BVal (VStr "received"))])))
    internal_error.

Definition list_orders (limit : Z) : M exn body :=
  try_except
    (bind (call_get_documents "order" [] (Some limit)) (fun docs =>
     let docs := map stringify_id docs in
     ret (items docs)))
    internal_error.

(** *** Routes *)

Definition run (h : M exn body) : world -> http_response * world :=
  fun w => let (r, w') := h w in (respond r, w').

(** A body parameter annotated with a model class: the framework
    validates the payload before the handler is called, and answers a
    payload that fails with status 422 itself. *)
Definition with_payload (coerce : ftype -> pyval -> option pyval)
    (fields : list field_decl) (handler : document -> M exn body)
    (raw : document) : world -> http_response * world :=
  match validate coerce fields raw with
  | Ok payload => run (handler payload)
  | Raise ve =>
      fun w =>
        (HttpResponse 422
           (BDict [("detail",
                    BList [BDict [("field", BVal (VStr (ve_field ve)));
                                  ("reason", BVal (VStr (ve_reason ve)))]])]),
         w)
  end.

(** [GET /] *)
Definition GET_root := run read_root.

(** [GET /api/products?category=] *)
Definition GET_products (category : option string) := run (list_products category).

(** [POST /api/products] *)
Definition POST_products coerce (raw : document) :=
  with_payload coerce Product_fields create_product raw.

(** [POST /api/seed] *)
Definition POST_seed := run seed_products.

(** [POST /api/orders], over the declaration of [Order]. *)
Definition POST_orders coerce (Order_fields : list field_decl) (raw : document) :=
  with_payload coerce Order_fields create_order raw.

(** [GET /api/orders?limit=]: the parameter defaults to 50. *)
Definition GET_orders (limit : option Z) :=
  run (list_orders (match limit with Some l => l | None => 50 end)).

End Handlers.

Arguments World {Store} store calls.
Arguments store {Store} w.
Arguments calls {Store} w.

(** ** An in-memory store *)

Definition pyval_eqb (a b : pyval) : bool :=
  match a, b with
  | VNone, VNone => true
  | VBool x, VBool y => Bool.eqb x y
  | VInt x, VInt y => Z.eqb x y
  | VFloat x, VFloat y => String.eqb x y
  | VStr x, VStr y => String.eqb x y
  | VObjectId x, VObjectId y => String.eqb x y
  | VType x, VType y => String.eqb x y
  | VUndefined, VUndefined => true
  | _, _ => false
  end.

(** Modelled from the spec: the store collaborator behind the [database]
    module, whose source is not available: named collections of documents
    in insertion order, an identifier assigned at insertion, and a handle
    that may be unreachable. *)
Record MemStore : Type := {
  reachable : bool;
  collections : dict (list document);
  next_id : nat
}.

Definition collection_of (s : MemStore) (name : string) : list document :=
  match dict_get (collections s) name with
  | Some docs => docs
  | None => []
  end.

(** The filter is an exact-match mapping; the empty filter matches all. *)
Definition matches (query doc : document) : bool :=
  forallb (fun kv =>
             match dict_get doc (fst kv) with
             | Some v => pyval_eqb v (snd kv)
             | None => false
             end) query.

(** The limit caps the number of returned documents. *)
Definition cap (limit : option Z) (docs : list document) : list document :=
  match limit with
  | Some l => firstn (Z.to_nat l) docs
  | None => docs
  end.

Definition not_available : pyexn := PyError "Exception" "Database not available".

Definition mem_get_documents (collection : string) (query : document) (limit : option Z)
    (s : MemStore) : result pyexn (list document) :=
  if reachable s then Ok (cap limit (filter (matches query) (collection_of s collection)))
  else Raise not_available.

Definition oid (n : nat) : string := NilZero.string_of_uint (Nat.to_uint n).

Definition mem_create_document (collection : string) (payload : document) (s : MemStore)
    : result pyexn pyval * MemStore :=
  if reachable s then
    let id := oid (next_id s) in
    (Ok (VStr id),
     {| reachable := true;
        collections :=
          dict_set (collections s) collection
            (collection_of s collection ++ [dict_set payload "_id" (VObjectId id)])%list;
        next_id := S (next_id s) |})
  else (Raise not_available, s).

Definition mem_empty : MemStore :=
  {| reachable := true; collections := []; next_id := 0 |}.

(** ** Inputs and predicates used in the statements *)

(** A declaration whose field [title] carries a description. *)
Definition described_title : field_decl :=
  FieldDecl "title" TStr true VUndefined (Some "Product title").

(** [str.lower] on text of ASCII characters, where it changes the letters
    A to Z and nothing else; it takes the place of the builtin in runs on
    such names. *)
Definition ascii_lower_char (c : ascii) : ascii :=
  let n := nat_of_ascii c in
  if (Nat.leb 65 n && Nat.leb n 90)%bool then ascii_of_nat (n + 32) else c.

Fixpoint ascii_lower (s : string) : string :=
  match s with
  | EmptyString => EmptyString
  | String c s' => String (ascii_lower_char c) (ascii_lower s')
  end.

(** The model class of a named declaration. *)
Definition declared (d : string * list field_decl) : model_cls :=
  declare (fst d) (snd d).

Definition no_field_info : pyexn :=
  AttributeError "'FieldInfo' object has no attribute 'field_info'".

(** Reading a response: the value under a key of a dictionary, and its
    keys in order. *)
Definition body_get (b : body) (k : string) : option body :=
  match b with
  | BDict d => dict_get d k
  | _ => None
  end.

Definition body_keys (b : body) : list string :=
  match b with
  | BDict d => keys d
  | _ => []
  end.

(** The item of a listing that stands for the stored document [p]: its
    [_id] is the text of the one [p] has ([None] if it has none), every
    other key holds what it holds in [p], and a [p] that has an [_id]
    keeps its keys in order. *)
Definition returned_as (p : document) (item : body) : Prop :=
  body_get item "_id"
  = Some (BVal (VStr (py_str (match dict_get p "_id" with
                              | Some v => v
                              | None => VNone
                              end))))
  /\ (forall k, k <> "_id" -> body_get item k = option_map BVal (dict_get p k))
  /\ (In "_id" (keys p) -> body_keys item = keys p).

(** The filter [list_products] passes to the store. *)
Definition category_query (category : option string) : document :=
  if truthy category then [("category", of_optional category)] else [].

(** The text under [database] for each state of the store handle. *)
Definition database_status (db : option Database) : string :=
  match db with
  | None => "⚠️  Available but not initialized"
  | Some h =>
      match db_name h, list_collection_names h with
      | AttrRaises e, _ => "❌ Error: " ++ str_take 50 (exn_msg e)
      | _, Ok _ => "✅ Connected & Working"
      | _, Raise e => "⚠️  Connected but Error: " ++ str_take 50 (exn_msg e)
      end
  end.

Definition env_status (value : option string) : string :=
  if truthy value then "✅ Set" else "❌ Not Set".

Definition mem_world (s : MemStore) : world MemStore := World s [].

(** A payload without its required [title]. *)
Definition untitled : document := [("price", VFloat "9.99")].

(** The catalog item of the spec's insertion scenario. *)
Definition test_item : document := Product "Test" "d" "9.99" "Audio" "http://x" true.

Definition unreachable : MemStore :=
  {| reachable := false; collections := []; next_id := 0 |}.

(** A store holding one product under a store-native identifier. *)
Definition one_product : MemStore :=
  {| reachable := true;
     collections :=
       [("product", [[("_id", VObjectId "65a1f0c2"); ("title", VStr "Test")]])];
     next_id := 1 |}.

(** Two products, one of them with the empty string as category. *)
Definition two_products : MemStore :=
  {| reachable := true;
     collections :=
       [("product",
         [ [("_id", VObjectId "a1"); ("category", VStr "")];
           [("_id", VObjectId "a2"); ("category", VStr "Audio")] ])];
     next_id := 2 |}.

(** A store holding sixty orders. *)
Definition sixty_orders : MemStore :=
  {| reachable := true;
     collections := [("order", repeat [("_id", VObjectId "65a1f0c2")] 60)];
     next_id := 60 |}.

(** A store double that accepts insertions until it holds [quota]
    documents and rejects every later one, leaving what it holds. *)
Definition quota_get_documents (collection : string) (query : document)
    (limit : option Z) (s : list document) : result pyexn (list document) :=
  Ok (cap limit (filter (matches query) s)).

Definition quota_exceeded : pyexn := PyError "WriteError" "quota exceeded".

Definition quota_create_document (quota : nat) (collection : string)
    (payload : document) (s : list document) : result pyexn pyval * list document :=
  if Nat.ltb (List.length s) quota then
    (Ok (VStr (oid (List.length s))),
     (s ++ [dict_set payload "_id" (VObjectId (oid (List.length s)))])%list)
  else (Raise quota_exceeded, s).

(** The store call [seed_products] starts with. *)
Definition seed_lookup : call := GetDocuments "product" [] (Some 1).

(** A module with a model without fields ahead of a declared one. *)
Definition mixed_members : list member :=
  [ MModel (declare "Empty" []); MBaseModel; MModel (declare "Product" [described_title]) ].

(** A required field object without a [default] attribute. *)
Definition required_without_default : pyobj :=
  Obj "Field"
    [ ("annotation", Atom (VType "<class 'str'>"));
      ("is_required", Atom (VBool true));
      ("field_info", Obj "Info" []) ].

(** What [test_database] puts under [connection_status] and
    [collections] for each state of the store handle. *)
Definition connection_status_of (db : option Database) : string :=
  match db with
  | Some h =>
      match db_name h with
      | AttrRaises _ => "Not Connected"
      | _ => "Connected"
      end
  | None => "Not Connected"
  end.

Definition collections_of (db : option Database) : list string :=
  match db with
  | Some h =>
      match db_name h, list_collection_names h with
      | AttrRaises _, _ => []
      | _, Ok names => firstn 10 names
      | _, Raise _ => []
      end
  | None => []
  end.

(** A store handle whose listing of collections fails with a message of
    sixty characters. *)
Definition failing_listing : Database :=
  {| db_name := AttrValue (VStr "cartx");
     list_collection_names :=
       Raise (PyError "OperationFailure"
                "012345678901234567890123456789012345678901234567890123456789") |}.

(** The empty quota store, with no call made. *)
Definition quota_world : world (list document) := World [] [].

(** * Properties *)

(** ** Dictionaries and results *)

Lemma dict_get_set_same {V} (d : dict V) (k : string) (v : V) :
  dict_get (dict_set d k v) k = Some v.
Proof.
  induction d as [| [k' v'] d IH]; simpl.
  - now rewrite String.eqb_refl.
  - destruct (String.eqb k k') eqn:E; simpl; rewrite E; [reflexivity | exact IH].
Qed.

Lemma dict_get_set_other {V} (d : dict V) (k k0 : string) (v : V) :
  k0 <> k -> dict_get (dict_set d k v) k0 = dict_get d k0.
Proof.
  intros Hne.
  induction d as [| [k' v'] d IH]; simpl.
  - destruct (String.eqb k0 k) eqn:E; [| reflexivity].
    apply String.eqb_eq in E. contradiction.
  - destruct (String.eqb k k') eqn:E; simpl.
    + apply String.eqb_eq in E. subst k'.
      destruct (String.eqb k0 k) eqn:E0; [| reflexivity].
      apply String.eqb_eq in E0. contradiction.
    + now rewrite IH.
Qed.

Lemma keys_dict_set_present {V} (d : dict V) (k : string) (v : V) :
  In k (keys d) -> keys (dict_set d k v) = keys d.
Proof.
  unfold keys.
  induction d as [| [k' v'] d IH]; simpl; intros Hin.
  - contradiction.
  - destruct (String.eqb k k') eqn:E; simpl.
    + reflexivity.
    + f_equal. apply IH. destruct Hin as [<- | Hin]; [| exact Hin].
      now rewrite String.eqb_refl in E.
Qed.

(** ** The schema report *)

(** The object [model_fields] holds for a declared field has no attribute
    [field_info]: building its entry raises. *)
Lemma field_to_dict_FieldInfo (annotation : string) (required : bool)
    (default : pyval) (description : option string) :
  field_to_dict (FieldInfo annotation required default description)
  = Raise (AttributeError "'FieldInfo' object has no attribute 'field_info'").
Proof.
  destruct required; reflexivity.
Qed.

Lemma model_to_dict_declare_cons (lower : string -> string) (name : string)
    (f : field_decl) (fields : list field_decl) :
  model_to_dict lower (declare name (f :: fields)) = Raise no_field_info.
Proof.
  unfold model_to_dict, declare. simpl model_fields. simpl rmapM.
  now rewrite field_to_dict_FieldInfo.
Qed.

(** C1 (the code departs from the claim): for a model class built from a
    declaration with at least one field, whatever its description,
    [model_to_dict] raises [AttributeError] at [field.field_info], and
    so does [get_schema] on a module whose first model is such a class: no
    report is produced, and no declared description is reproduced. *)
Theorem model_to_dict_declared_field_raises :
  forall (lower : string -> string) (name : string) (f : field_decl)
         (fields : list field_decl) (before : list member) (after : list member),
    model_to_dict lower (declare name (f :: fields))
    = Raise (AttributeError "'FieldInfo' object has no attribute 'field_info'")
    /\ (models_of before = [] ->
        get_schema lower (before ++ MModel (declare name (f :: fields)) :: after)
        = Raise (AttributeError "'FieldInfo' object has no attribute 'field_info'")).
Proof.
  intros lower name f fields before after.
  assert (Hm : model_to_dict lower (declare name (f :: fields))
               = Raise (AttributeError "'FieldInfo' object has no attribute 'field_info'")).
  { unfold model_to_dict, declare. simpl model_fields. simpl rmapM.
    now rewrite field_to_dict_FieldInfo. }
  split; [exact Hm |].
  intros Hb. unfold get_schema, models_of in *.
  rewrite flat_map_app, Hb. simpl. now rewrite Hm.
Qed.

Lemma model_to_dict_declared_field_raises_witness :
  get_schema ascii_lower [MBaseModel; MOther; MModel (declare "Product" [described_title])]
  = Raise (AttributeError "'FieldInfo' object has no attribute 'field_info'").
Proof.
  exact (proj2 (model_to_dict_declared_field_raises
                  ascii_lower "Product" described_title [] [MBaseModel; MOther] [])
               eq_refl).
Defined.

(** C2 (the code departs from the claim): over the model classes the
    declarations of the module give rise to, [get_schema] returns a
    report only when no class has a field, each entry then holding the
    name, the lowered name as [collection] and no field; as soon as one
    class has a field it raises [AttributeError] at [field.field_info],
    so that no entry for a field, with its [type], [required] and
    [default], is ever returned. *)
Theorem get_schema_emits_no_field_entry :
  forall (lower : string -> string) (members : list member)
         (decls : list (string * list field_decl)),
    models_of members = map declared decls ->
    (Forall (fun d => snd d = []) decls
     /\ get_schema lower members
        = Ok (map (fun d => ModelReport (fst d) (lower (fst d)) []) decls))
    \/ (Exists (fun d => snd d <> []) decls
        /\ get_schema lower members
           = Raise (AttributeError "'FieldInfo' object has no attribute 'field_info'")).
Proof.
  intros lower members decls Hm. unfold get_schema. rewrite Hm. clear Hm.
  induction decls as [| [name fields] decls IH]; cbn [map rmapM].
  - left. split; [constructor | reflexivity].
  - destruct fields as [| f fields].
    + change (model_to_dict lower (declared (name, [])))
        with (@Ok pyexn _ (ModelReport name (lower name) [])).
      cbn [rbind].
      destruct IH as [[Hall Hok] | [Hex Herr]].
      * left. rewrite Hok. split; [constructor; auto | reflexivity].
      * right. rewrite Herr. split; [now apply Exists_cons_tl | reflexivity].
    + right. unfold declared at 1. cbn [fst snd].
      rewrite model_to_dict_declare_cons. split; [| reflexivity].
      apply Exists_cons_hd. discriminate.
Qed.

Lemma get_schema_emits_no_field_entry_witness :
  get_schema ascii_lower [MBaseModel; MModel (declare "Product" Product_fields)]
  = Raise (AttributeError "'FieldInfo' object has no attribute 'field_info'")
  /\ get_schema ascii_lower [MModel (declare "Empty" []); MOther]
     = Ok [ModelReport "Empty" "empty" []].
Proof.
  split.
  - destruct (get_schema_emits_no_field_entry
                ascii_lower [MBaseModel; MModel (declare "Product" Product_fields)]
                [("Product", Product_fields)] eq_refl)
      as [[Hall _] | [_ Herr]].
    + inversion Hall as [| d ds Hd _]. discriminate Hd.
    + exact Herr.
  - destruct (get_schema_emits_no_field_entry
                ascii_lower [MModel (declare "Empty" []); MOther]
                [("Empty", [])] eq_refl)
      as [[_ Hok] | [Hex _]].
    + exact Hok.
    + exfalso. inversion Hex as [d ds Hd | d ds Hd]; [now apply Hd | inversion Hd].
Defined.

(** ** The handlers *)

Ltac unfold_handler :=
  unfold GET_products, GET_orders, POST_seed, run,
         list_products, list_orders, create_product, create_order, seed_products,
         try_except, bind, ret, raise, internal_error,
         call_get_documents, call_create_document;
  cbn [store calls fst snd].

Lemma stringify_id_id (p : document) :
  dict_get (stringify_id p) "_id"
  = Some (VStr (py_str (match dict_get p "_id" with Some v => v | None => VNone end))).
Proof.
  apply dict_get_set_same.
Qed.

Lemma stringify_id_other (p : document) (k : string) :
  k <> "_id" -> dict_get (stringify_id p) k = dict_get p k.
Proof.
  apply dict_get_set_other.
Qed.

Lemma stringify_id_keys (p : document) :
  In "_id" (keys p) -> keys (stringify_id p) = keys p.
Proof.
  apply keys_dict_set_present.
Qed.

Lemma body_get_of_document (d : document) (k : string) :
  body_get (body_of_document d) k = option_map BVal (dict_get d k).
Proof.
  unfold body_of_document, body_get.
  induction d as [| [k' v] d IH]; cbn [map dict_get fst snd]; [reflexivity |].
  destruct (String.eqb k k'); [reflexivity | exact IH].
Qed.

Lemma body_keys_of_document (d : document) :
  body_keys (body_of_document d) = keys d.
Proof.
  unfold body_of_document, body_keys, keys. rewrite map_map.
  apply map_ext. reflexivity.
Qed.

Lemma stringified_returned_as (p : document) :
  returned_as p (body_of_document (stringify_id p)).
Proof.
  unfold returned_as. split; [| split].
  - now rewrite body_get_of_document, stringify_id_id.
  - intros k Hk. now rewrite body_get_of_document, stringify_id_other.
  - intros Hin. rewrite body_keys_of_document. now apply stringify_id_keys.
Qed.

Lemma listing_returned_as (docs : list document) :
  Forall2 returned_as docs (map body_of_document (map stringify_id docs)).
Proof.
  induction docs as [| p docs IH]; cbn [map]; constructor;
    auto using stringified_returned_as.
Qed.

Lemma matches_empty (doc : document) : matches [] doc = true.
Proof.
  reflexivity.
Qed.

Lemma filter_matches_empty (docs : list document) : filter (matches []) docs = docs.
Proof.
  induction docs as [| d docs IH]; simpl; [reflexivity | now rewrite IH].
Qed.

Lemma collection_of_created (collection : string) (payload : document) (s s' : MemStore)
    (id : pyval) :
  mem_create_document collection payload s = (Ok id, s') ->
  reachable s' = true
  /\ collection_of s' collection
     = (collection_of s collection
          ++ [dict_set payload "_id" (VObjectId (oid (next_id s)))])%list.
Proof.
  unfold mem_create_document. destruct (reachable s); [| discriminate].
  intros H. injection H as _ <-. split; [reflexivity |].
  unfold collection_of at 1. simpl. now rewrite dict_get_set_same.
Qed.

(** The in-memory store lists what was inserted. *)
Lemma mem_store_lists_inserted (collection : string) (payload : document)
    (s s' : MemStore) (id : pyval) :
  mem_create_document collection payload s = (Ok id, s') ->
  exists d ds, mem_get_documents collection [] (Some 1) s' = Ok (d :: ds).
Proof.
  intros H. apply collection_of_created in H as [Hr Hc].
  unfold mem_get_documents. rewrite Hr, filter_matches_empty, Hc.
  destruct (collection_of s collection) as [| d0 ds0]; simpl; eauto.
Qed.

(** The in-memory store never returns more documents than the limit. *)
Lemma mem_store_caps (collection : string) (query : document) (limit : Z)
    (s : MemStore) (docs : list document) :
  mem_get_documents collection query (Some limit) s = Ok docs ->
  (List.length docs <= Z.to_nat limit)%nat.
Proof.
  unfold mem_get_documents, cap. destruct (reachable s); [| discriminate].
  intros H. injection H as <-. apply firstn_le_length.
Qed.

Section HandlerProperties.

Variable Store : Type.
Variable get_documents :
  string -> document -> option Z -> Store -> result pyexn (list document).
Variable create_document :
  string -> document -> Store -> result pyexn pyval * Store.

(** After a successful run of a non-empty loop of insertions, the store
    is the one the last insertion left. *)
Lemma mapM_create_last (collection : string) (payloads : list document) :
  payloads <> [] ->
  forall (w w' : world Store) (ids : list pyval),
    mapM (call_create_document create_document collection) payloads w = (Ok ids, w') ->
    exists payload s id,
      create_document collection payload s = (Ok id, store w').
Proof.
  induction payloads as [| p payloads IH]; [congruence |].
  intros _ w w' ids. cbn [mapM]. unfold bind at 1, call_create_document at 1.
  destruct (create_document collection p (store w)) as [r s1] eqn:Hc.
  destruct r as [id | e]; [| discriminate].
  destruct payloads as [| p' payloads'].
  - cbn [mapM]. unfold bind, ret. intros H. injection H as _ <-.
    exists p, (store w), id. exact Hc.
  - unfold bind at 1.
    destruct (mapM _ (p' :: payloads') _) as [[bs | e] w''] eqn:Hm;
      [| discriminate].
    unfold ret. intros H. injection H as _ <-.
    eapply IH; [discriminate | exact Hm].
Qed.

Lemma seed_products_existing (w : world Store) (d : document) (ds : list document) :
  get_documents "product" [] (Some 1) (store w) = Ok (d :: ds) ->
  seed_products get_documents create_document w
  = (Ok (BDict [("status", BVal (VStr "already-seeded"))]),
     World (store w) (calls w ++ [GetDocuments "product" [] (Some 1)])).
Proof.
  intros H. unfold_handler. now rewrite H.
Qed.

(** C5: over a store that lists what was inserted into it: whenever the
    lookup of one product finds a document, [seed_products] returns
    [already-seeded], its only store call is that lookup (no insertion)
    and the store is left as it was; and whenever a run of
    [seed_products] returns normally, the next run returns
    [already-seeded] and leaves the store as the first run left it. *)
Theorem seed_products_idempotent :
  (forall payload s id s',
      create_document "product" payload s = (Ok id, s') ->
      exists d ds, get_documents "product" [] (Some 1) s' = Ok (d :: ds)) ->
  forall w : world Store,
    (forall d ds,
        get_documents "product" [] (Some 1) (store w) = Ok (d :: ds) ->
        seed_products get_documents create_document w
        = (Ok (BDict [("status", BVal (VStr "already-seeded"))]),
           World (store w) (calls w ++ [GetDocuments "product" [] (Some 1)])))
    /\ (forall r w',
          seed_products get_documents create_document w = (Ok r, w') ->
          seed_products get_documents create_document w'
          = (Ok (BDict [("status", BVal (VStr "already-seeded"))]),
             World (store w') (calls w' ++ [GetDocuments "product" [] (Some 1)]))).
Proof.
  intros Hlists w. split; [apply seed_products_existing |].
  intros r w' Hrun.
  assert (Hex : exists d ds, get_documents "product" [] (Some 1) (store w') = Ok (d :: ds)).
  { revert Hrun. unfold_handler.
    destruct (get_documents "product" [] (Some 1) (store w)) as [[| d ds] | e] eqn:Hg.
    - destruct (mapM _ samples _) as [[ids | e] w1] eqn:Hm; [| discriminate].
      intros H. injection H as _ <-.
      apply mapM_create_last in Hm as (payload & s & id & Hc); [| discriminate].
      eapply Hlists, Hc.
    - intros H. injection H as _ <-. simpl. eauto.
    - discriminate. }
  destruct Hex as (d & ds & Hg). now apply seed_products_existing with d ds.
Qed.

(** C6: for a payload that passes validation, [POST /api/products] makes
    exactly one store call, the insertion of the validated document, and
    answers either with [{_id: id}] for the identifier [id] the store
    returned, or with status 500 whose detail is the message of the
    exception the store raised. *)
Theorem POST_products_succeeds_or_fails :
  forall (coerce : ftype -> pyval -> option pyval) (raw payload : document)
         (w : world Store),
    validate coerce Product_fields raw = Ok payload ->
    exists s',
      snd (POST_products create_document coerce raw w)
      = World s' (calls w ++ [CreateDocument "product" payload])
      /\ ((exists id,
             create_document "product" payload (store w) = (Ok id, s')
             /\ fst (POST_products create_document coerce raw w)
                = HttpResponse 200 (BDict [("_id", BVal id)]))
          \/ (exists e,
                create_document "product" payload (store w) = (Raise e, s')
                /\ fst (POST_products create_document coerce raw w)
                   = HttpResponse 500 (BDict [("detail", BVal (VStr (exn_msg e)))]))).
Proof.
  intros coerce raw payload w Hv.
  unfold POST_products, with_payload. rewrite Hv. unfold_handler.
  destruct (create_document "product" payload (store w)) as [[id | e] s'] eqn:Hc;
    exists s'; simpl; split; eauto.
Qed.

End HandlerProperties.

Section RouteProperties.

Variable Store : Type.
Variable get_documents :
  string -> document -> option Z -> Store -> result pyexn (list document).
Variable create_document :
  string -> document -> Store -> result pyexn pyval * Store.

Lemma with_payload_invalid (coerce : ftype -> pyval -> option pyval)
    (fields : list field_decl) (handler : document -> M Store exn body)
    (raw : document) (ve : validation_error) (w : world Store) :
  validate coerce fields raw = Raise ve ->
  status (fst (with_payload coerce fields handler raw w)) = 422
  /\ snd (with_payload coerce fields handler raw w) = w.
Proof.
  intros H. unfold with_payload. rewrite H. simpl. auto.
Qed.

(** A handler that wraps one insertion answers 500 exactly when the
    insertion raises. *)
Lemma with_payload_500 (coerce : ftype -> pyval -> option pyval)
    (fields : list field_decl) (collection : string) (reply : pyval -> body)
    (raw : document) (w : world Store) :
  let handler payload :=
    try_except
      (bind (call_create_document create_document collection payload)
            (fun _id => ret (reply _id)))
      (@internal_error Store body) in
  status (fst (with_payload coerce fields handler raw w)) = 500
  <-> exists payload e,
        validate coerce fields raw = Ok payload
        /\ fst (create_document collection payload (store w)) = Raise e.
Proof.
  intros handler. unfold with_payload.
  destruct (validate coerce fields raw) as [payload | ve] eqn:Hv.
  - unfold handler. unfold_handler.
    destruct (create_document collection payload (store w)) as [[id | e] s'] eqn:Hc;
      simpl; split.
    + discriminate.
    + intros (payload' & e & Hp & He). injection Hp as <-.
      rewrite Hc in He. discriminate.
    + intros _. exists payload, e. rewrite Hc. auto.
    + reflexivity.
  - simpl. split; [discriminate |].
    intros (payload & e & Hp & _). discriminate.
Qed.

(** C4 (as amended): a payload that fails validation is answered with
    status 422 before the handler is called, with the store and the
    record of store calls left as they were; [POST /api/products] and
    [POST /api/orders] answer with status 500 exactly when the payload
    passes validation and the insertion raises. *)
Theorem POST_invalid_payload_is_rejected_with_422 :
  forall (coerce : ftype -> pyval -> option pyval) (Order_fields : list field_decl)
         (raw : document) (w : world Store),
    (forall ve,
        validate coerce Product_fields raw = Raise ve ->
        status (fst (POST_products create_document coerce raw w)) = 422
        /\ snd (POST_products create_document coerce raw w) = w)
    /\ (forall ve,
          validate coerce Order_fields raw = Raise ve ->
          status (fst (POST_orders create_document coerce Order_fields raw w)) = 422
          /\ snd (POST_orders create_document coerce Order_fields raw w) = w)
    /\ (status (fst (POST_products create_document coerce raw w)) = 500
        <-> exists payload e,
              validate coerce Product_fields raw = Ok payload
              /\ fst (create_document "product" payload (store w)) = Raise e)
    /\ (status (fst (POST_orders create_document coerce Order_fields raw w)) = 500
        <-> exists payload e,
              validate coerce Order_fields raw = Ok payload
              /\ fst (create_document "order" payload (store w)) = Raise e).
Proof.
  intros coerce Order_fields raw w. repeat split.
  - eapply with_payload_invalid; eassumption.
  - eapply with_payload_invalid; eassumption.
  - eapply with_payload_invalid; eassumption.
  - eapply with_payload_invalid; eassumption.
  - apply (with_payload_500 coerce Product_fields "product"
             (fun _id => BDict [("_id", BVal _id)])).
  - apply (with_payload_500 coerce Product_fields "product"
             (fun _id => BDict [("_id", BVal _id)])).
  - apply (with_payload_500 coerce Order_fields "order"
             (fun _id => BDict [("_id", BVal _id); ("status", BVal (VStr "received"))])).
  - apply (with_payload_500 coerce Order_fields "order"
             (fun _id => BDict [("_id", BVal _id); ("status", BVal (VStr "received"))])).
Qed.

(** C7: whatever list of documents the store returns, [list_products]
    and [list_orders] return, under [items], one item per document, in
    the same order; the item of a document has [_id] set to the [str] of
    the value it had ([None] when it had none), every other key holding
    the value it held, and the keys of a document that has an [_id] in
    the order they were. *)
Theorem listed_documents_have_string_id :
  forall (category : option string) (limit : Z) (w : world Store),
    (forall docs,
        get_documents "product" (category_query category) None (store w) = Ok docs ->
        exists listed,
          fst (list_products get_documents category w)
          = Ok (BDict [("items", BList listed)])
          /\ Forall2 returned_as docs listed)
    /\ (forall docs,
          get_documents "order" [] (Some limit) (store w) = Ok docs ->
          exists listed,
            fst (list_orders get_documents limit w)
            = Ok (BDict [("items", BList listed)])
            /\ Forall2 returned_as docs listed).
Proof.
  intros category limit w. split.
  - intros docs H. exists (map body_of_document (map stringify_id docs)).
    split; [| apply listing_returned_as].
    unfold_handler. fold (category_query category). now rewrite H.
  - intros docs H. exists (map body_of_document (map stringify_id docs)).
    split; [| apply listing_returned_as].
    unfold_handler. now rewrite H.
Qed.

(** C8: without a [limit] parameter [GET /api/orders] behaves as with
    [limit=50]: its one store call asks the [order] collection, with the
    empty filter, for at most 50 documents; a given limit is passed on
    as it is; and over a store that returns no more documents than the
    limit it is asked with, the answer without a parameter is either a
    list of at most 50 items or the store's failure with status 500. *)
Theorem GET_orders_default_limit :
  (forall collection query limit s docs,
      0 <= limit ->
      get_documents collection query (Some limit) s = Ok docs ->
      Z.of_nat (List.length docs) <= limit) ->
  forall (limit : Z) (w : world Store),
    GET_orders get_documents None w = GET_orders get_documents (Some 50) w
    /\ calls (snd (GET_orders get_documents None w))
       = (calls w ++ [GetDocuments "order" [] (Some 50)])%list
    /\ calls (snd (GET_orders get_documents (Some limit) w))
       = (calls w ++ [GetDocuments "order" [] (Some limit)])%list
    /\ store (snd (GET_orders get_documents None w)) = store w
    /\ ((exists docs listed,
           get_documents "order" [] (Some 50) (store w) = Ok docs
           /\ fst (GET_orders get_documents None w)
              = HttpResponse 200 (BDict [("items", BList listed)])
           /\ Forall2 returned_as docs listed
           /\ Z.of_nat (List.length listed) <= 50)
        \/ (exists e,
              get_documents "order" [] (Some 50) (store w) = Raise e
              /\ fst (GET_orders get_documents None w)
                 = HttpResponse 500 (BDict [("detail", BVal (VStr (exn_msg e)))]))).
Proof.
  intros Hcap limit w. split; [reflexivity |].
  unfold_handler.
  split; [now destruct (get_documents "order" [] (Some 50) (store w)) |].
  split; [now destruct (get_documents "order" [] (Some limit) (store w)) |].
  split; [now destruct (get_documents "order" [] (Some 50) (store w)) |].
  destruct (get_documents "order" [] (Some 50) (store w)) as [docs | e] eqn:Hg.
  - left. exists docs, (map body_of_document (map stringify_id docs)).
    split; [reflexivity |]. split; [reflexivity |].
    split; [apply listing_returned_as |].
    rewrite !length_map. eapply Hcap; [| exact Hg]. lia.
  - right. exists e. auto.
Qed.

(** C10: with [category] the empty string, [GET /api/products] does what
    it does without the parameter: its one store call asks the [product]
    collection with the empty filter and no limit, and it answers with
    every document the store returns for that, one item each, in order,
    or with the store's failure as status 500. *)
Theorem GET_products_empty_category_is_unfiltered :
  forall w : world Store,
    GET_products get_documents (Some "") w = GET_products get_documents None w
    /\ calls (snd (GET_products get_documents (Some "") w))
       = (calls w ++ [GetDocuments "product" [] None])%list
    /\ (forall docs,
          get_documents "product" [] None (store w) = Ok docs ->
          exists listed,
            fst (GET_products get_documents (Some "") w)
            = HttpResponse 200 (BDict [("items", BList listed)])
            /\ Forall2 returned_as docs listed)
    /\ (forall e,
          get_documents "product" [] None (store w) = Raise e ->
          fst (GET_products get_documents (Some "") w)
          = HttpResponse 500 (BDict [("detail", BVal (VStr (exn_msg e)))])).
Proof.
  intros w. split; [reflexivity |].
  unfold_handler. cbn [truthy String.eqb negb].
  destruct (get_documents "product" [] None (store w)) as [docs | e];
    unfold raise; cbn [fst snd respond calls].
  - split; [reflexivity |]. split; [| discriminate].
    intros docs' H. injection H as <-.
    exists (map body_of_document (map stringify_id docs)).
    split; [reflexivity | apply listing_returned_as].
  - split; [reflexivity |]. split; [discriminate |].
    intros e' H. injection H as <-. reflexivity.
Qed.

End RouteProperties.

(** ** The diagnostic probe *)

(** C9: for every state of the store handle (absent; present with a
    [name] that is missing, readable or failing; listing of collections
    succeeding or raising) and every environment, [test_database] returns
    a dictionary with exactly the keys [backend], [database],
    [database_url], [database_name], [connection_status] and
    [collections]; the failure, if any, is the text under [database], the
    two environment entries say whether the variable is set, and
    [collections] holds at most ten names. *)
Theorem test_database_never_raises :
  forall (db : option Database) (getenv : string -> option string),
  exists response,
    test_database db getenv = Ok response
    /\ keys response
       = [ "backend"; "database"; "database_url"; "database_name";
           "connection_status"; "collections" ]
    /\ dict_get response "backend" = Some (BVal (VStr "✅ Running"))
    /\ dict_get response "database" = Some (BVal (VStr (database_status db)))
    /\ dict_get response "database_url"
       = Some (BVal (VStr (env_status (getenv "DATABASE_URL"))))
    /\ dict_get response "database_name"
       = Some (BVal (VStr (env_status (getenv "DATABASE_NAME"))))
    /\ (exists s, dict_get response "connection_status" = Some (BVal (VStr s)))
    /\ (exists names,
          dict_get response "collections" = Some (BList (map (fun c => BVal (VStr c)) names))
          /\ (List.length names <= 10)%nat).
Proof.
  intros db getenv. unfold test_database, env_status.
  destruct db as [[name listing] |]; [destruct name, listing |];
    (eexists; split; [reflexivity |]);
    cbn -[firstn str_take String.append];
    (repeat split; try reflexivity; eauto);
    try (exists []; split; [reflexivity | simpl; lia]).
  all: eexists; split; [reflexivity | apply firstn_le_length].
Qed.

(** ** The properties at work on the in-memory store *)

(** C4 (the claim as stated fails): the payload [untitled] fails
    validation, and [POST /api/products] answers it with status 422, not
    500. *)
Lemma POST_products_untitled_is_422 :
  validate coerce_exact Product_fields untitled = Raise (ValidationError "title" "missing")
  /\ status (fst (POST_products mem_create_document coerce_exact untitled
                    (mem_world mem_empty))) = 422
  /\ status (fst (POST_products mem_create_document coerce_exact untitled
                    (mem_world mem_empty))) <> 500.
Proof.
  split; [reflexivity |]. split; [reflexivity |]. discriminate.
Defined.

Lemma POST_invalid_payload_is_rejected_with_422_witness :
  status (fst (POST_products mem_create_document coerce_exact untitled
                 (mem_world mem_empty))) = 422
  /\ snd (POST_products mem_create_document coerce_exact untitled (mem_world mem_empty))
     = mem_world mem_empty.
Proof.
  exact (proj1 (POST_invalid_payload_is_rejected_with_422
                  mem_create_document coerce_exact [] untitled (mem_world mem_empty))
               (ValidationError "title" "missing") eq_refl).
Defined.

Lemma seed_products_idempotent_witness :
  let first := seed_products mem_get_documents mem_create_document (mem_world mem_empty) in
  fst first
  = Ok (BDict [ ("status", BVal (VStr "seeded"));
                 ("count", BVal (VInt 4));
                 ("ids", BList [BVal (VStr "0"); BVal (VStr "1");
                                BVal (VStr "2"); BVal (VStr "3")]) ])
  /\ List.length (collection_of (store (snd first)) "product") = 4%nat
  /\ seed_products mem_get_documents mem_create_document (snd first)
     = (Ok (BDict [("status", BVal (VStr "already-seeded"))]),
        World (store (snd first))
              (calls (snd first) ++ [GetDocuments "product" [] (Some 1)])).
Proof.
  split; [reflexivity |]. split; [reflexivity |].
  apply (proj2 (seed_products_idempotent
                  mem_get_documents mem_create_document
                  (fun payload s id s' => @mem_store_lists_inserted "product" payload s s' id)
                  (mem_world mem_empty)))
    with (r := seeded [VStr "0"; VStr "1"; VStr "2"; VStr "3"]).
  reflexivity.
Defined.

Lemma POST_products_succeeds_or_fails_witness :
  validate coerce_exact Product_fields test_item = Ok test_item
  /\ fst (POST_products mem_create_document coerce_exact test_item (mem_world mem_empty))
     = HttpResponse 200 (BDict [("_id", BVal (VStr "0"))])
  /\ fst (POST_products mem_create_document coerce_exact test_item (mem_world unreachable))
     = HttpResponse 500 (BDict [("detail", BVal (VStr "Database not available"))])
  /\ exists s',
       snd (POST_products mem_create_document coerce_exact test_item (mem_world mem_empty))
       = World s' [CreateDocument "product" test_item].
Proof.
  split; [reflexivity |]. split; [reflexivity |]. split; [reflexivity |].
  destruct (POST_products_succeeds_or_fails
              mem_create_document coerce_exact test_item
              (mem_world mem_empty) eq_refl) as [s' [Hw _]].
  exists s'. exact Hw.
Defined.

Lemma listed_documents_have_string_id_witness :
  fst (list_products mem_get_documents None (mem_world one_product))
  = Ok (BDict [("items",
                BList [BDict [ ("_id", BVal (VStr "65a1f0c2"));
                               ("title", BVal (VStr "Test")) ]])])
  /\ exists listed,
       fst (list_products mem_get_documents None (mem_world one_product))
       = Ok (BDict [("items", BList listed)])
       /\ Forall2 returned_as
            [[("_id", VObjectId "65a1f0c2"); ("title", VStr "Test")]] listed.
Proof.
  split; [reflexivity |].
  exact (proj1 (listed_documents_have_string_id
                  mem_get_documents None 0 (mem_world one_product))
               [[("_id", VObjectId "65a1f0c2"); ("title", VStr "Test")]] eq_refl).
Defined.

Lemma GET_products_empty_category_is_unfiltered_witness :
  fst (GET_products mem_get_documents (Some "") (mem_world two_products))
  = HttpResponse 200
      (BDict [("items",
               BList [ BDict [("_id", BVal (VStr "a1")); ("category", BVal (VStr ""))];
                       BDict [("_id", BVal (VStr "a2")); ("category", BVal (VStr "Audio"))] ])])
  /\ exists listed,
       fst (GET_products mem_get_documents (Some "") (mem_world two_products))
       = HttpResponse 200 (BDict [("items", BList listed)])
       /\ Forall2 returned_as (collection_of two_products "product") listed.
Proof.
  split; [reflexivity |].
  exact (proj1 (proj2 (proj2 (GET_products_empty_category_is_unfiltered
                                mem_get_documents (mem_world two_products))))
               (collection_of two_products "product") eq_refl).
Defined.

Lemma mem_store_caps_Z (collection : string) (query : document) (limit : Z)
    (s : MemStore) (docs : list document) :
  0 <= limit ->
  mem_get_documents collection query (Some limit) s = Ok docs ->
  Z.of_nat (List.length docs) <= limit.
Proof.
  intros Hl H. apply mem_store_caps in H. lia.
Qed.

Lemma GET_orders_default_limit_witness :
  List.length (collection_of sixty_orders "order") = 60%nat
  /\ fst (GET_orders mem_get_documents None (mem_world sixty_orders))
     = HttpResponse 200
         (BDict [("items", BList (repeat (BDict [("_id", BVal (VStr "65a1f0c2"))]) 50))])
  /\ calls (snd (GET_orders mem_get_documents None (mem_world sixty_orders)))
     = [GetDocuments "order" [] (Some 50)]
  /\ calls (snd (GET_orders mem_get_documents (Some 7) (mem_world sixty_orders)))
     = [GetDocuments "order" [] (Some 7)].
Proof.
  split; [reflexivity |]. split; [reflexivity |].
  destruct (GET_orders_default_limit mem_get_documents mem_store_caps_Z 7
              (mem_world sixty_orders)) as (_ & H50 & H7 & _).
  split; [exact H50 | exact H7].
Defined.


(** ** Runs on concrete inputs *)

Example ascii_lower_Product : ascii_lower "Product" = "product".
Proof. reflexivity. Qed.

Example str_len_counts_characters :
  str_len "épée" = 4%nat /\ String.length "épée" = 6%nat.
Proof. split; reflexivity. Qed.

Example str_take_keeps_characters_whole :
  str_take 2 "épée" = "ép" /\ str_take 1 "⚠️ x" = "⚠".
Proof. split; reflexivity. Qed.

Example stringify_id_absent :
  stringify_id [("title", VStr "t")] = [("title", VStr "t"); ("_id", VStr "None")].
Proof. reflexivity. Qed.

Example get_schema_no_fields :
  get_schema ascii_lower [MBaseModel; MModel (declare "Empty" [])]
  = Ok [ModelReport "Empty" "empty" []].
Proof. reflexivity. Qed.

Example get_schema_Product_raises :
  get_schema ascii_lower [MBaseModel; MModel (declare "Product" Product_fields)]
  = Raise (AttributeError "'FieldInfo' object has no attribute 'field_info'").
Proof. reflexivity. Qed.

Example validate_fills_default_and_drops_unknown :
  validate coerce_exact Product_fields
    [ ("title", VStr "Test"); ("colour", VStr "red"); ("description", VStr "d");
      ("price", VFloat "9.99"); ("category", VStr "Audio"); ("image", VStr "http://x") ]
  = Ok test_item.
Proof. reflexivity. Qed.

Example validate_type_mismatch :
  validate coerce_exact Product_fields
    [ ("title", VStr "Test"); ("description", VStr "d"); ("price", VBool true) ]
  = Raise (ValidationError "price" "type-mismatch").
Proof. reflexivity. Qed.

Example GET_products_empty_category_lists_all :
  fst (GET_products mem_get_documents (Some "") (mem_world two_products))
  = HttpResponse 200
      (BDict [("items",
               BList [ BDict [("_id", BVal (VStr "a1")); ("category", BVal (VStr ""))];
                       BDict [("_id", BVal (VStr "a2")); ("category", BVal (VStr "Audio"))] ])]).
Proof. reflexivity. Qed.

Example GET_products_Audio_lists_one :
  fst (GET_products mem_get_documents (Some "Audio") (mem_world two_products))
  = HttpResponse 200
      (BDict [("items",
               BList [ BDict [("_id", BVal (VStr "a2")); ("category", BVal (VStr "Audio"))] ])]).
Proof. reflexivity. Qed.

Example POST_seed_unreachable :
  POST_seed mem_get_documents mem_create_document (mem_world unreachable)
  = (HttpResponse 500 (BDict [("detail", BVal (VStr "Database not available"))]),
     World unreachable [GetDocuments "product" [] (Some 1)]).
Proof. reflexivity. Qed.

Example POST_orders_stores_then_lists :
  let w := snd (POST_orders mem_create_document coerce_exact
                  [FieldDecl "customer" TStr true VUndefined None]
                  [("customer", VStr "Ada")] (mem_world mem_empty)) in
  fst (GET_orders mem_get_documents None w)
  = HttpResponse 200
      (BDict [("items",
               BList [ BDict [("customer", BVal (VStr "Ada")); ("_id", BVal (VStr "0"))] ])]).
Proof. reflexivity. Qed.

Example test_database_absent :
  test_database None (fun _ => None)
  = Ok [ ("backend", BVal (VStr "✅ Running"));
         ("database", BVal (VStr "⚠️  Available but not initialized"));
         ("database_url", BVal (VStr "❌ Not Set"));
         ("database_name", BVal (VStr "❌ Not Set"));
         ("connection_status", BVal (VStr "Not Connected"));
         ("collections", BList []) ].
Proof. reflexivity. Qed.

Example test_database_listing_fails :
  test_database
    (Some {| db_name := AttrValue (VStr "cartx");
             list_collection_names := Raise (PyError "ServerSelectionTimeoutError" "timed out") |})
    (fun name => if String.eqb name "DATABASE_URL" then Some "mongodb://h" else Some "")
  = Ok [ ("backend", BVal (VStr "✅ Running"));
         ("database", BVal (VStr "⚠️  Connected but Error: timed out"));
         ("database_url", BVal (VStr "✅ Set"));
         ("database_name", BVal (VStr "❌ Not Set"));
         ("connection_status", BVal (VStr "Connected"));
         ("collections", BList []) ].
Proof. reflexivity. Qed.


(** * Further properties of the handlers *)

(** ** Dictionaries and text *)

Lemma dict_set_absent {V} (d : dict V) (k : string) (v : V) :
  dict_get d k = None -> dict_set d k v = (d ++ [(k, v)])%list.
Proof.
  induction d as [| [k' v'] d IH]; simpl; intros H.
  - reflexivity.
  - destruct (String.eqb k k'); [discriminate |]. now rewrite IH.
Qed.

Lemma dict_set_twice {V} (d : dict V) (k : string) (v v' : V) :
  dict_set (dict_set d k v) k v' = dict_set d k v'.
Proof.
  induction d as [| [k0 v0] d IH]; simpl.
  - now rewrite String.eqb_refl.
  - destruct (String.eqb k k0) eqn:E; simpl; rewrite E; [reflexivity |].
    now rewrite IH.
Qed.

Lemma dict_get_In_keys {V} (d : dict V) (k : string) (v : V) :
  dict_get d k = Some v -> In k (keys d).
Proof.
  unfold keys.
  induction d as [| [k' v'] d IH]; cbn [dict_get map fst In]; intros H.
  - discriminate.
  - destruct (String.eqb k k') eqn:E.
    + left. symmetry. now apply String.eqb_eq.
    + right. auto.
Qed.

Lemma str_take_length (n : nat) (s : string) :
  str_len (str_take n s) = Nat.min n (str_len s).
Proof.
  revert n. induction s as [| c s IH]; intros n; cbn [str_take str_len].
  - now rewrite Nat.min_0_r.
  - destruct (is_continuation c) eqn:E.
    + cbn [str_len]. rewrite E. apply IH.
    + destruct n as [| n]; cbn [str_len]; [reflexivity |].
      rewrite E, IH. reflexivity.
Qed.

Lemma str_take_prefix (n : nat) (s : string) :
  exists rest, s = str_take n s ++ rest.
Proof.
  revert n. induction s as [| c s IH]; intros n; cbn [str_take].
  - exists "". reflexivity.
  - destruct (is_continuation c).
    + destruct (IH n) as [rest Hr]. exists rest. cbn [String.append]. now rewrite <- Hr.
    + destruct n as [| n].
      * exists (String c s). reflexivity.
      * destruct (IH n) as [rest Hr]. exists rest. cbn [String.append].
        now rewrite <- Hr.
Qed.

Lemma str_take_all (n : nat) (s : string) :
  (str_len s <= n)%nat -> str_take n s = s.
Proof.
  revert n. induction s as [| c s IH]; intros n; cbn [str_take str_len].
  - reflexivity.
  - destruct (is_continuation c).
    + intros H. now rewrite IH.
    + destruct n as [| n]; intros H; [lia |]. rewrite IH; [reflexivity | lia].
Qed.

(** X1: converting the identifier of a document a second time changes
    nothing. *)
Theorem stringify_id_idempotent :
  forall p : document, stringify_id (stringify_id p) = stringify_id p.
Proof.
  intros p. unfold stringify_id at 1.
  rewrite stringify_id_id. cbn [py_str].
  unfold stringify_id. apply dict_set_twice.
Qed.

(** X2: a document without an [_id] gets one, holding the text [None],
    after the keys it has; a document with an [_id] keeps its number of
    keys. *)
Theorem stringify_id_without_id :
  forall p : document,
    (dict_get p "_id" = None ->
     stringify_id p = (p ++ [("_id", VStr "None")])%list)
    /\ (forall v, dict_get p "_id" = Some v ->
          List.length (stringify_id p) = List.length p
          /\ dict_get (stringify_id p) "_id" = Some (VStr (py_str v))).
Proof.
  intros p. split.
  - intros H. unfold stringify_id. rewrite H. now apply dict_set_absent.
  - intros v H. split.
    + assert (Hk : keys (stringify_id p) = keys p).
      { eapply stringify_id_keys, dict_get_In_keys, H. }
      unfold keys in Hk.
      rewrite <- (length_map fst (stringify_id p)), Hk. apply length_map.
    + rewrite stringify_id_id. now rewrite H.
Qed.

Lemma stringify_id_without_id_witness :
  stringify_id [("title", VStr "t"); ("price", VFloat "9.99")]
  = [("title", VStr "t"); ("price", VFloat "9.99"); ("_id", VStr "None")].
Proof.
  exact (proj1 (stringify_id_without_id [("title", VStr "t"); ("price", VFloat "9.99")])
               eq_refl).
Defined.

(** ** The schema report *)

(** X3: the entry of a field is built exactly when the field object has
    [annotation], a boolean [is_required()], [field_info], and, if it is
    not required, [default]: a required field needs no [default]. *)
Theorem field_to_dict_succeeds_iff :
  forall field : pyobj,
    (exists r, field_to_dict field = Ok r)
    <-> (exists annotation required field_info,
           getattr field "annotation" = Ok annotation
           /\ getattr field "is_required" = Ok (Atom (VBool required))
           /\ (required = false -> exists d, getattr field "default" = Ok d)
           /\ getattr field "field_info" = Ok field_info).
Proof.
  intros field. unfold field_to_dict, call_bool. split.
  - intros [r H].
    destruct (getattr field "annotation") as [annotation |] eqn:Ha; [| discriminate].
    destruct (getattr field "is_required") as [req |] eqn:Hr; [| discriminate].
    cbn [rbind] in H.
    destruct req as [[| b | | | | | |] |]; try discriminate.
    cbn [rbind] in H.
    destruct (getattr field "field_info") as [field_info |] eqn:Hi.
    + exists annotation, b, field_info. repeat split; auto.
      intros ->. cbn in H.
      destruct (getattr field "default") as [d |]; [eauto | discriminate].
    + destruct b; cbn in H; [discriminate |].
      destruct (getattr field "default"); discriminate.
  - intros (annotation & required & field_info & Ha & Hr & Hd & Hi).
    rewrite Ha, Hr. cbn [rbind].
    destruct required; cbn [rbind].
    + rewrite Hi. cbn [rbind]. eauto.
    + destruct (Hd eq_refl) as [d Hd']. rewrite Hd', Hi. cbn [rbind]. eauto.
Qed.

Lemma rmapM_first_failure {E A B} (f : A -> result E B) (good : list A) (bad : A)
    (rest : list A) (bs : list B) (e : E) :
  rmapM f good = Ok bs -> f bad = Raise e ->
  rmapM f (good ++ bad :: rest) = Raise e.
Proof.
  revert bs. induction good as [| a good IH]; simpl; intros bs Hg Hb.
  - now rewrite Hb.
  - destruct (f a) as [b | e0]; [| discriminate]. cbn [rbind] in *.
    destruct (rmapM f good) as [bs' | e0] eqn:Hg'; [| discriminate].
    now rewrite (IH bs' eq_refl Hb).
Qed.

(** X4: the report is all or nothing: when the model classes ahead of
    one are reported and that one raises, [get_schema] raises the same
    exception and returns no report, whatever follows. *)
Theorem get_schema_first_failing_model :
  forall (lower : string -> string) (members : list member) (good : list model_cls)
         (cls : model_cls) (rest : list model_cls) (reports : list model_report)
         (e : pyexn),
    models_of members = (good ++ cls :: rest)%list ->
    rmapM (model_to_dict lower) good = Ok reports ->
    model_to_dict lower cls = Raise e ->
    get_schema lower members = Raise e.
Proof.
  intros lower members good cls rest reports e Hm Hg Hc.
  unfold get_schema. rewrite Hm. eapply rmapM_first_failure; eassumption.
Qed.

Lemma get_schema_first_failing_model_witness :
  get_schema ascii_lower mixed_members
  = Raise (AttributeError "'FieldInfo' object has no attribute 'field_info'").
Proof.
  exact (get_schema_first_failing_model
           ascii_lower mixed_members [declare "Empty" []]
           (declare "Product" [described_title]) []
           eq_refl eq_refl eq_refl).
Defined.

(** X5: members of the module that are not model classes (the imported
    [BaseModel], other classes, anything that is not a class) have no
    part in the report, wherever they stand. *)
Theorem get_schema_skips_non_models :
  forall (lower : string -> string) (before after : list member) (name : string),
    get_schema lower (before ++ MBaseModel :: after) = get_schema lower (before ++ after)
    /\ get_schema lower (before ++ MClass name :: after)
       = get_schema lower (before ++ after)
    /\ get_schema lower (before ++ MOther :: after) = get_schema lower (before ++ after).
Proof.
  intros lower before after name. unfold get_schema, models_of.
  rewrite !flat_map_app. simpl. auto.
Qed.

(** ** The handlers over any store *)

Section SeedProperties.

Variable Store : Type.
Variable get_documents :
  string -> document -> option Z -> Store -> result pyexn (list document).
Variable create_document :
  string -> document -> Store -> result pyexn pyval * Store.

(** A loop of insertions that ends normally made one call per payload, in
    order, and got one identifier per payload. *)
Lemma mapM_create_ok (collection : string) (payloads : list document) :
  forall (w w' : world Store) (ids : list pyval),
    mapM (call_create_document create_document collection) payloads w = (Ok ids, w') ->
    List.length ids = List.length payloads
    /\ calls w' = (calls w ++ map (CreateDocument collection) payloads)%list.
Proof.
  induction payloads as [| p payloads IH]; intros w w' ids; cbn [mapM].
  - unfold ret. intros H. injection H as <- <-. now rewrite app_nil_r.
  - unfold bind at 1, call_create_document at 1.
    destruct (create_document collection p (store w)) as [[id | e] s1]; [| discriminate].
    unfold bind at 1.
    destruct (mapM _ payloads _) as [[bs | e] w1] eqn:Hm; [| discriminate].
    unfold ret. intros H. injection H as <- <-.
    apply IH in Hm as [Hl Hc]. cbn [calls] in Hc.
    split; [simpl; now rewrite Hl |].
    rewrite Hc, <- app_assoc. reflexivity.
Qed.

(** A loop of insertions that ends with an exception stopped at the
    insertion that raised it: the payloads ahead of it were inserted, the
    ones after it were not tried, and the store is the one the failing
    insertion left. *)
Lemma mapM_create_raise (collection : string) (payloads : list document) :
  forall (w w' : world Store) (e : pyexn),
    mapM (call_create_document create_document collection) payloads w = (Raise e, w') ->
    exists done p rest s,
      payloads = (done ++ p :: rest)%list
      /\ calls w' = (calls w ++ map (CreateDocument collection) (done ++ [p]))%list
      /\ create_document collection p s = (Raise e, store w')
      /\ (done = [] -> s = store w)
      /\ (done <> [] ->
          exists p0 s0 id, create_document collection p0 s0 = (Ok id, s)).
Proof.
  induction payloads as [| a payloads IH]; intros w w' e; cbn [mapM].
  - unfold ret. discriminate.
  - unfold bind at 1, call_create_document at 1.
    destruct (create_document collection a (store w)) as [[id | e0] s1] eqn:Hc.
    + unfold bind at 1.
      destruct (mapM _ payloads _) as [[bs | e1] w1] eqn:Hm; [discriminate |].
      intros H. injection H as <- <-.
      apply IH in Hm as (done & p & rest & s & Hp & Hcalls & Hfail & Hfirst & Hlater).
      cbn [calls store] in *.
      exists (a :: done), p, rest, s. repeat split.
      * now rewrite Hp.
      * rewrite Hcalls, <- app_assoc. reflexivity.
      * exact Hfail.
      * discriminate.
      * intros _. destruct done as [| d done'].
        -- rewrite (Hfirst eq_refl). eauto.
        -- apply Hlater. discriminate.
    + intros H. injection H as <- <-. cbn [calls store].
      exists [], a, payloads, (store w). repeat split; auto.
      congruence.
Qed.

(** X6: a run of [seed_products] that returns normally either found a
    product and did nothing else, or found none and then inserted the
    four samples into [product], in the order they are listed, and
    nothing else: its answer is [seeded] with four identifiers, so
    [count] is 4. *)
Theorem seed_products_normal_outcomes :
  forall (w w' : world Store) (r : body),
    seed_products get_documents create_document w = (Ok r, w') ->
    (r = BDict [("status", BVal (VStr "already-seeded"))]
     /\ w' = World (store w) (calls w ++ [seed_lookup]))
    \/ (exists ids,
          r = BDict [ ("status", BVal (VStr "seeded"));
                      ("count", BVal (VInt 4));
                      ("ids", BList (map BVal ids)) ]
          /\ List.length ids = 4%nat
          /\ get_documents "product" [] (Some 1) (store w) = Ok []
          /\ calls w'
             = (calls w ++ seed_lookup :: map (CreateDocument "product") samples)%list).
Proof.
  intros w w' r. unfold_handler. fold seed_lookup.
  destruct (get_documents "product" [] (Some 1) (store w)) as [[| d ds] | e] eqn:Hg.
  - destruct (mapM _ samples _) as [[ids | e] w1] eqn:Hm; [| discriminate].
    intros H. injection H as <- <-. right.
    apply mapM_create_ok in Hm as [Hl Hc]. cbn [calls] in Hc.
    exists ids. split; [| split; [exact Hl | split; [reflexivity |]]].
    + unfold seeded. rewrite Hl. reflexivity.
    + rewrite Hc, <- app_assoc. reflexivity.
  - intros H. injection H as <- <-. left. auto.
  - discriminate.
Qed.

(** What a failing run of [seed_products] did. *)
Lemma seed_products_raise_inv :
  forall (w w' : world Store) (e : exn),
    seed_products get_documents create_document w = (Raise e, w') ->
    exists err,
      e = HTTPException 500 (exn_msg err)
      /\ ((get_documents "product" [] (Some 1) (store w) = Raise err
           /\ w' = World (store w) (calls w ++ [seed_lookup]))
          \/ (exists done p rest s,
                samples = (done ++ p :: rest)%list
                /\ get_documents "product" [] (Some 1) (store w) = Ok []
                /\ calls w'
                   = (calls w ++ seed_lookup
                        :: map (CreateDocument "product") (done ++ [p]))%list
                /\ create_document "product" p s = (Raise err, store w')
                /\ (done = [] -> s = store w)
                /\ (done <> [] ->
                    exists p0 s0 id,
                      create_document "product" p0 s0 = (Ok id, s)))).
Proof.
  intros w w' e. unfold_handler. fold seed_lookup.
  destruct (get_documents "product" [] (Some 1) (store w)) as [[| d ds] | err] eqn:Hg.
  - destruct (mapM _ samples _) as [[ids | err] w1] eqn:Hm; [discriminate |].
    intros H. injection H as <- <-. exists err. split; [reflexivity |]. right.
    apply mapM_create_raise in Hm
      as (done & p & rest & s & Hp & Hc & Hfail & Hfirst & Hlater).
    cbn [calls store] in *.
    exists done, p, rest, s. repeat split; auto.
    rewrite Hc, <- app_assoc. reflexivity.
  - discriminate.
  - intros H. injection H as <- <-. exists err. split; [reflexivity |]. left. auto.
Qed.

(** X7: a run of [seed_products] that fails raises [HTTPException] with
    status 500 and the message of the store's exception; either the
    lookup raised it and nothing was inserted, or an insertion did: then
    the samples ahead of it stay inserted, the ones after it were not
    tried, and the store is left as the failing insertion left it. *)
Theorem seed_products_failure_keeps_inserts :
  forall (w w' : world Store) (e : exn),
    seed_products get_documents create_document w = (Raise e, w') ->
    exists err,
      e = HTTPException 500 (exn_msg err)
      /\ ((get_documents "product" [] (Some 1) (store w) = Raise err
           /\ w' = World (store w) (calls w ++ [seed_lookup]))
          \/ (exists done p rest s,
                samples = (done ++ p :: rest)%list
                /\ get_documents "product" [] (Some 1) (store w) = Ok []
                /\ calls w'
                   = (calls w ++ seed_lookup
                        :: map (CreateDocument "product") (done ++ [p]))%list
                /\ create_document "product" p s = (Raise err, store w')
                /\ (done = [] -> s = store w)
                /\ (done <> [] ->
                    exists p0 s0 id,
                      create_document "product" p0 s0 = (Ok id, s)))).
Proof.
  intros w w' e Hrun.
  apply seed_products_raise_inv in Hrun as (err & He & Hwhere).
  exists err. split; [exact He | exact Hwhere].
Qed.

(** X8: a seeding that failed after its first insertion is not made up
    for: over a store that lists what was inserted and that a rejected
    insertion leaves as it was, the next run answers [already-seeded]
    and inserts nothing, though fewer than four samples are stored. *)
Theorem seed_products_partial_seed_stays :
  (forall payload s id s',
      create_document "product" payload s = (Ok id, s') ->
      exists d ds, get_documents "product" [] (Some 1) s' = Ok (d :: ds)) ->
  (forall payload s e s',
      create_document "product" payload s = (Raise e, s') -> s' = s) ->
  forall (w w' : world Store) (e : exn) (c1 c2 : call) (more : list call),
    seed_products get_documents create_document w = (Raise e, w') ->
    calls w' = (calls w ++ seed_lookup :: c1 :: c2 :: more)%list ->
    seed_products get_documents create_document w'
    = (Ok (BDict [("status", BVal (VStr "already-seeded"))]), World (store w') (calls w' ++ [seed_lookup])).
Proof.
  intros Hlists Hkeeps w w' e c1 c2 more Hrun Hcalls.
  apply seed_products_raise_inv in Hrun as (err & _ & [[_ Hw] | Hins]).
  - subst w'. cbn [calls] in Hcalls.
    apply app_inv_head in Hcalls. discriminate.
  - destruct Hins as (done & p & rest & s & _ & _ & Hc & Hfail & _ & Hlater).
    rewrite Hc in Hcalls. apply app_inv_head in Hcalls.
    injection Hcalls as Hcalls.
    assert (Hdone : done <> []).
    { intros ->. discriminate. }
    destruct (Hlater Hdone) as (p0 & s0 & id & Hok).
    apply Hkeeps in Hfail. rewrite <- Hfail in Hok.
    destruct (Hlists _ _ _ _ Hok) as (d & ds & Hg).
    unfold seed_lookup. now apply seed_products_existing with d ds.
Qed.

(** X9: [create_order] makes exactly one store call, the insertion of
    the payload into [order], and returns either the identifier the store
    gave together with the status [received], or [HTTPException] 500 with
    the message of the store's exception. *)
Theorem create_order_succeeds_or_fails :
  forall (payload : document) (w : world Store),
    exists s',
      snd (create_order create_document payload w)
      = World s' (calls w ++ [CreateDocument "order" payload])
      /\ ((exists id,
             create_document "order" payload (store w) = (Ok id, s')
             /\ fst (create_order create_document payload w)
                = Ok (BDict [("_id", BVal id); ("status", BVal (VStr "received"))]))
          \/ (exists e,
                create_document "order" payload (store w) = (Raise e, s')
                /\ fst (create_order create_document payload w)
                   = Raise (HTTPException 500 (exn_msg e)))).
Proof.
  intros payload w. unfold_handler.
  destruct (create_document "order" payload (store w)) as [[id | e] s'] eqn:Hc;
    exists s'; simpl; split; eauto.
Qed.

(** X10: with a category that is not empty, [list_products] makes one
    store call, asking [product] for the documents whose [category] is
    the given text, without a limit; the store is left as it was; and
    an exception of the store becomes [HTTPException] 500 with its
    message, no list being returned. *)
Theorem list_products_filters_by_category :
  forall (c : string) (w : world Store),
    c <> "" ->
    snd (list_products get_documents (Some c) w)
    = World (store w) (calls w ++ [GetDocuments "product" [("category", VStr c)] None])
    /\ (forall e,
          get_documents "product" [("category", VStr c)] None (store w) = Raise e ->
          fst (list_products get_documents (Some c) w)
          = Raise (HTTPException 500 (exn_msg e)))
    /\ (forall docs,
          get_documents "product" [("category", VStr c)] None (store w) = Ok docs ->
          exists listed,
            fst (list_products get_documents (Some c) w)
            = Ok (BDict [("items", BList listed)])
            /\ Forall2 returned_as docs listed).
Proof.
  intros c w Hc. unfold_handler.
  assert (Ht : truthy (Some c) = true).
  { simpl. destruct (String.eqb c "") eqn:E; [| reflexivity].
    apply String.eqb_eq in E. contradiction. }
  rewrite Ht. cbn [of_optional].
  destruct (get_documents "product" [("category", VStr c)] None (store w)) as [docs | e];
    unfold raise; cbn [fst snd].
  - split; [reflexivity |]. split; [discriminate |].
    intros docs' H. injection H as <-.
    exists (map body_of_document (map stringify_id docs)).
    split; [reflexivity | apply listing_returned_as].
  - split; [reflexivity |]. split; [| discriminate].
    intros e' H. injection H as <-. reflexivity.
Qed.

(** X11: whatever the limit, [list_orders] makes one store call and
    leaves the store as it was; an exception of the store becomes
    [HTTPException] 500 with its message, no list being returned. *)
Theorem list_orders_store_error :
  forall (limit : Z) (w : world Store),
    snd (list_orders get_documents limit w)
    = World (store w) (calls w ++ [GetDocuments "order" [] (Some limit)])
    /\ (forall e,
          get_documents "order" [] (Some limit) (store w) = Raise e ->
          fst (list_orders get_documents limit w)
          = Raise (HTTPException 500 (exn_msg e))).
Proof.
  intros limit w. unfold_handler.
  destruct (get_documents "order" [] (Some limit) (store w)) as [docs | e];
    unfold raise; cbn [fst snd]; split; intros; try discriminate; congruence.
Qed.

(** X12: the five store-backed routes answer with status 200 or 500 and
    with no other, whatever the store does. *)
Theorem store_routes_answer_200_or_500 :
  forall (category : option string) (limit : option Z) (payload : document)
         (w : world Store),
    (status (fst (GET_products get_documents category w)) = 200
     \/ status (fst (GET_products get_documents category w)) = 500)
    /\ (status (fst (run (create_product create_document payload) w)) = 200
        \/ status (fst (run (create_product create_document payload) w)) = 500)
    /\ (status (fst (POST_seed get_documents create_document w)) = 200
        \/ status (fst (POST_seed get_documents create_document w)) = 500)
    /\ (status (fst (run (create_order create_document payload) w)) = 200
        \/ status (fst (run (create_order create_document payload) w)) = 500)
    /\ (status (fst (GET_orders get_documents limit w)) = 200
        \/ status (fst (GET_orders get_documents limit w)) = 500).
Proof.
  intros category limit payload w. repeat split.
  - unfold_handler.
    destruct (get_documents "product" _ None (store w)); simpl; auto.
  - unfold_handler.
    destruct (create_document "product" payload (store w)) as [[id | e] s']; simpl; auto.
  - unfold POST_seed, run.
    destruct (seed_products get_documents create_document w) as [[r | e] w'] eqn:Hs.
    + simpl. auto.
    + apply seed_products_raise_inv in Hs as (err & -> & _). simpl. auto.
  - unfold_handler.
    destruct (create_document "order" payload (store w)) as [[id | e] s']; simpl; auto.
  - unfold_handler.
    destruct (get_documents "order" [] _ (store w)); simpl; auto.
Qed.

End SeedProperties.

(** ** The diagnostic probe, further *)

(** X13: the name of the database never reaches the answer: whether the
    handle has a [name], and which, makes no difference, since the entry
    written from it is overwritten from the environment. *)
Theorem test_database_hides_db_name :
  forall (listing : result pyexn (list string)) (v : pyval)
         (getenv : string -> option string),
    test_database (Some {| db_name := AttrValue v; list_collection_names := listing |})
                  getenv
    = test_database (Some {| db_name := AttrAbsent; list_collection_names := listing |})
                    getenv.
Proof.
  intros listing v getenv. unfold test_database.
  destruct listing; reflexivity.
Qed.

(** X14: [connection_status] is [Connected] whenever the handle is there
    and reading its name does not raise, also when the listing of
    collections fails; [collections] holds the first ten names of a
    listing that succeeded, in order, and is empty otherwise. *)
Theorem test_database_connection_and_collections :
  forall (db : option Database) (getenv : string -> option string),
  exists response,
    test_database db getenv = Ok response
    /\ dict_get response "connection_status"
       = Some (BVal (VStr (connection_status_of db)))
    /\ dict_get response "collections"
       = Some (BList (map (fun c => BVal (VStr c)) (collections_of db))).
Proof.
  intros db getenv. unfold test_database.
  destruct db as [[name listing] |]; [destruct name, listing |];
    (eexists; split; [reflexivity |]);
    cbn -[firstn str_take String.append]; split; reflexivity.
Qed.

(** X15: when the listing of collections raises, the text under
    [database] ends with the message of the exception cut after fifty
    characters (not bytes): a prefix of the message, fifty characters
    long or the whole of it when it has at most fifty. *)
Theorem test_database_error_text_is_cut :
  forall (h : Database) (e : pyexn) (getenv : string -> option string),
    list_collection_names h = Raise e ->
    (forall e', db_name h <> AttrRaises e') ->
    exists response shown rest,
      test_database (Some h) getenv = Ok response
      /\ dict_get response "database"
         = Some (BVal (VStr ("⚠️  Connected but Error: " ++ shown)))
      /\ exn_msg e = shown ++ rest
      /\ str_len shown = Nat.min 50 (str_len (exn_msg e))
      /\ ((str_len (exn_msg e) <= 50)%nat -> shown = exn_msg e).
Proof.
  intros [name listing] e getenv Hl Hn. cbn [list_collection_names db_name] in *.
  subst listing.
  destruct (str_take_prefix 50 (exn_msg e)) as [rest Hrest].
  exists (dict_set
            (dict_set
               (dict_set
                  (dict_set
                     (dict_set
                        (dict_set
                           (dict_set
                              [ ("backend", BVal (VStr "✅ Running"));
                                ("database", BVal (VStr "❌ Not Available"));
                                ("database_url", BVal VNone);
                                ("database_name", BVal VNone);
                                ("connection_status", BVal (VStr "Not Connected"));
                                ("collections", BList []) ]
                              "database" (BVal (VStr "✅ Available")))
                           "database_url" (BVal (VStr "✅ Configured")))
                        "database_name"
                        (BVal (match name with
                               | AttrValue v => v
                               | _ => VStr "✅ Connected"
                               end)))
                     "connection_status" (BVal (VStr "Connected")))
                  "database"
                  (BVal (VStr ("⚠️  Connected but Error: " ++ str_take 50 (exn_msg e)))))
               "database_url" (BVal (VStr (env_status (getenv "DATABASE_URL")))))
            "database_name" (BVal (VStr (env_status (getenv "DATABASE_NAME"))))),
         (str_take 50 (exn_msg e)), rest.
  split.
  - destruct name; [reflexivity | reflexivity |].
    exfalso. now apply (Hn e0).
  - split; [reflexivity |]. split; [exact Hrest |].
    split; [apply str_take_length | apply str_take_all].
Qed.

(** ** The further properties at work *)

Lemma quota_store_lists_inserted (quota : nat) (payload : document)
    (s s' : list document) (id : pyval) :
  quota_create_document quota "product" payload s = (Ok id, s') ->
  exists d ds, quota_get_documents "product" [] (Some 1) s' = Ok (d :: ds).
Proof.
  unfold quota_create_document, quota_get_documents.
  destruct (Nat.ltb (List.length s) quota); [| discriminate].
  intros H. injection H as _ <-. rewrite filter_matches_empty.
  destruct s as [| d0 s]; simpl; eauto.
Qed.

Lemma quota_store_keeps_on_failure (quota : nat) (payload : document)
    (s s' : list document) (e : pyexn) :
  quota_create_document quota "product" payload s = (Raise e, s') -> s' = s.
Proof.
  unfold quota_create_document.
  destruct (Nat.ltb (List.length s) quota); [discriminate |].
  intros H. now injection H.
Qed.

Lemma seed_products_normal_outcomes_witness :
  exists ids,
    fst (seed_products mem_get_documents mem_create_document (mem_world mem_empty))
    = Ok (BDict [ ("status", BVal (VStr "seeded"));
                  ("count", BVal (VInt 4));
                  ("ids", BList (map BVal ids)) ])
    /\ List.length ids = 4%nat.
Proof.
  destruct (seed_products_normal_outcomes
              mem_get_documents mem_create_document (mem_world mem_empty)
              (w' := snd (seed_products mem_get_documents mem_create_document
                            (mem_world mem_empty)))
              (r := seeded [VStr "0"; VStr "1"; VStr "2"; VStr "3"]) eq_refl)
    as [[Ha _] | (ids & Hr & Hl & _)].
  - discriminate Ha.
  - exists ids. split; [| exact Hl]. rewrite <- Hr. reflexivity.
Defined.

Lemma seed_products_failure_keeps_inserts_witness :
  let run := seed_products quota_get_documents (quota_create_document 2) quota_world in
  fst run = Raise (HTTPException 500 "quota exceeded")
  /\ List.length (store (snd run)) = 2%nat
  /\ List.length (calls (snd run)) = 4%nat
  /\ exists err, HTTPException 500 "quota exceeded" = HTTPException 500 (exn_msg err).
Proof.
  split; [reflexivity |]. split; [reflexivity |]. split; [reflexivity |].
  destruct (seed_products_failure_keeps_inserts
              quota_get_documents (quota_create_document 2) quota_world
              (w' := snd (seed_products quota_get_documents (quota_create_document 2)
                            quota_world))
              (e := HTTPException 500 "quota exceeded") eq_refl)
    as (err & He & _).
  exists err. exact He.
Defined.

Lemma seed_products_partial_seed_stays_witness :
  let run := seed_products quota_get_documents (quota_create_document 2) quota_world in
  fst run = Raise (HTTPException 500 "quota exceeded")
  /\ fst (seed_products quota_get_documents (quota_create_document 2) (snd run))
     = Ok (BDict [("status", BVal (VStr "already-seeded"))])
  /\ List.length
       (store (snd (seed_products quota_get_documents (quota_create_document 2) (snd run))))
     = 2%nat.
Proof.
  split; [reflexivity |].
  assert (H := seed_products_partial_seed_stays
                 quota_get_documents (quota_create_document 2)
                 (fun payload s id s' => @quota_store_lists_inserted 2 payload s s' id)
                 (fun payload s e s' => @quota_store_keeps_on_failure 2 payload s s' e)
                 quota_world
                 (w' := snd (seed_products quota_get_documents (quota_create_document 2)
                               quota_world))
                 (e := HTTPException 500 "quota exceeded")
                 (CreateDocument "product" (nth 0 samples []))
                 (CreateDocument "product" (nth 1 samples []))
                 [CreateDocument "product" (nth 2 samples [])]
                 eq_refl eq_refl).
  split; [now rewrite H | now rewrite H].
Defined.

Lemma list_products_filters_by_category_witness :
  snd (list_products mem_get_documents (Some "Audio") (mem_world two_products))
  = World two_products [GetDocuments "product" [("category", VStr "Audio")] None].
Proof.
  apply (proj1 (list_products_filters_by_category
                  mem_get_documents (c := "Audio") (mem_world two_products)
                  ltac:(discriminate))).
Defined.

Lemma test_database_error_text_is_cut_witness :
  exists response,
    test_database (Some failing_listing) (fun _ => None) = Ok response
    /\ dict_get response "database"
       = Some (BVal (VStr "⚠️  Connected but Error: 01234567890123456789012345678901234567890123456789")).
Proof.
  destruct (test_database_error_text_is_cut
              failing_listing
              (e := PyError "OperationFailure"
                      "012345678901234567890123456789012345678901234567890123456789")
              (fun _ => None) eq_refl ltac:(discriminate))
    as (response & shown & rest & Hr & _).
  exists response. split; [exact Hr |].
  injection Hr as <-. reflexivity.
Defined.
